(** * bedoner.lang.juman: the Juman tokenizer adapter

    A shallow embedding of [bedoner/lang/juman/__init__.py]: the
    [Tokenizer] adapter that turns the output of the Juman morphological
    analyzer (pyknp) into a spaCy document, the [Defaults] factory, the
    [Japanese] language variant and its pickle hook.

    Python exceptions are modelled by an error result, the global state
    the module touches (the extension registry of spaCy's [Token] class)
    by explicit state passing. *)

From stdpp Require Import base option list gmap strings.

Local Open Scope string_scope.

(** ** Python runtime: exceptions, truthiness, global state *)

(** A raised exception: its class name and its message. *)
Inductive exn : Type :=
  | Exception (cls : string) (msg : string).

Inductive result (A : Type) : Type :=
  | Ok (a : A)
  | Raise (e : exn).
Arguments Ok {A} a.
Arguments Raise {A} e.

(** Values a custom token attribute holds in this module: the default
    [False] and the detail string. *)
Inductive PyVal : Type :=
  | PyBool (b : bool)
  | PyStr (s : string).

(** Truthiness of an optional string: [None] and [""] are falsy. *)
Definition truthy_str (o : option string) : bool :=
  match o with
  | Some s => negb (String.eqb s "")
  | None => false
  end.

(** [a or b] where [a] is an optional string and [b] a string. *)
Definition py_or (a : option string) (b : string) : string :=
  match a with
  | Some s => if truthy_str a then s else b
  | None => b
  end.

(** Truthiness of an optional dict: [None] and [{}] are falsy. *)
Definition truthy_dict (o : option (gmap string string)) : bool :=
  match o with
  | Some d => negb (bool_decide (d = ∅))
  | None => false
  end.

(** The state outside the adapter: the class-level registry of custom
    token attributes ([Underscore.token_extensions], name to default
    value), and a ghost log of the texts handed to the analyzer, latest
    last. *)
Record World : Type := mkWorld {
  token_extensions : gmap string PyVal;
  analysis_log : list string
}.

(** Computations that read and write the world and may raise.  When a
    computation raises, the world is the one reached at the raise. *)
Definition M (A : Type) : Type := World -> result A * World.

Definition ret {A} (a : A) : M A := fun w => (Ok a, w).

Definition bind {A B} (c : M A) (k : A -> M B) : M B :=
  fun w =>
    match c w with
    | (Ok a, w') => k a w'
    | (Raise e, w') => (Raise e, w')
    end.

(** A call of a collaborator that may raise but leaves the world alone. *)
Definition lift {A} (r : result A) : M A := fun w => (r, w).

Notation "'let*' x ':=' c 'in' k" := (bind c (fun x => k))
  (at level 10, x name, c at level 100, k at level 200).

(** ** pyknp: the analyzer's interface *)

Module pyknp.

(** One morphological unit as the analyzer reports it. *)
Record Morpheme : Type := mkMorpheme {
  midasi : string;
  genkei : option string;
  hinsi : string;
  bunrui : string;
  fstring : string
}.

Record MList : Type := mkMList {
  mrph_list : list Morpheme
}.

(** A [Juman] object: its [analysis] method. *)
Record JumanObj : Type := mkJuman {
  analysis : string -> result MList
}.

End pyknp.

(** ** spaCy: documents, tokens, custom token attributes

    The part of the host framework the adapter calls, after its
    documented behaviour: a document is the sequence of its tokens, and
    an attribute written on a token is stored for that token. *)

Module spacy.

Record Token : Type := mkToken {
  text : string;
  whitespace : bool;
  lemma_ : string;
  tag_ : string;
  underscore : gmap string PyVal
}.

(** The vocabulary is owned by the host framework; the adapter only
    passes the reference on.  Of its content the adapter's calls reach
    the tag map and the morphology behind it: assigning a tag that is a
    key of the tag map makes the vocabulary's morphology decide the tag
    and the lemma the token ends up with. *)
Record Vocab : Type := mkVocab {
  vocab_ref : nat;
  tag_map : gset string;
  morph_tag : string -> Token -> string;
  morph_lemma : string -> Token -> string
}.

(** A vocabulary whose tag map is empty. *)
Definition bare_vocab (ref : nat) : Vocab :=
  mkVocab ref ∅ (fun tag _ => tag) (fun _ t => lemma_ t).

Record Doc : Type := mkDoc {
  doc_vocab : Vocab;
  tokens : list Token
}.

Definition new_token (word : string) (space : bool) : Token :=
  mkToken word space "" "" ∅.

(** [Doc(vocab, words=words, spaces=spaces)]: the two sequences must
    have the same length, and no word may be the empty string. *)
Definition Doc_init (v : Vocab) (words : list string) (spaces : list bool)
  : result Doc :=
  if decide (length spaces = length words)
  then if decide ("" ∈ words)
       then Raise (Exception "ValueError" "[E031]")
       else Ok (mkDoc v (zip_with new_token words spaces))
  else Raise (Exception "ValueError" "[E027]").

(** [doc.text]: every token's text followed by its trailing space. *)
Definition Doc_text (d : Doc) : string :=
  foldr (fun t acc => text t +:+ (if whitespace t then " " else "") +:+ acc)
        "" (tokens d).

(** [Token.set_extension(name, default=default, force=force)]. *)
Definition Token_set_extension (name : string) (default : PyVal)
    (force : bool) : M unit :=
  fun w =>
    if bool_decide (is_Some (token_extensions w !! name)) && negb force
    then (Raise (Exception "ValueError" "[E090]"), w)
    else (Ok tt, mkWorld (<[name := default]> (token_extensions w))
                         (analysis_log w)).

Definition set_lemma_ (v : string) (t : Token) : Token :=
  mkToken (text t) (whitespace t) v (tag_ t) (underscore t).

(** The tag setter: a tag outside the tag map is stored as it is; a
    tag that is a key of the tag map is assigned by the vocabulary's
    morphology, which also derives the lemma anew. *)
Definition set_tag_ (voc : Vocab) (v : string) (t : Token) : Token :=
  if decide (v ∈ tag_map voc)
  then mkToken (text t) (whitespace t) (morph_lemma voc v t)
               (morph_tag voc v t) (underscore t)
  else mkToken (text t) (whitespace t) (lemma_ t) v (underscore t).

Definition set_underscore (name : string) (v : PyVal) (t : Token) : Token :=
  mkToken (text t) (whitespace t) (lemma_ t) (tag_ t)
          (<[name := v]> (underscore t)).

(** A token yielded by iterating a document is a view of the document's
    [i]-th slot: writing an attribute of the token writes the document. *)

(** [token.lemma_ = v], [token] being [doc[i]]. *)
Definition Token_set_lemma_ (i : nat) (v : string) (d : Doc) : Doc :=
  mkDoc (doc_vocab d) (alter (set_lemma_ v) i (tokens d)).

(** [token.tag_ = v], [token] being [doc[i]]. *)
Definition Token_set_tag_ (i : nat) (v : string) (d : Doc) : Doc :=
  mkDoc (doc_vocab d) (alter (set_tag_ (doc_vocab d) v) i (tokens d)).

(** [token._.set(name, value)], [token] being [doc[i]]: an attribute
    that is not registered raises. *)
Definition Underscore_set (i : nat) (name : string) (value : PyVal)
    (d : Doc) : M Doc :=
  fun w =>
    match token_extensions w !! name with
    | None => (Raise (Exception "AttributeError" "[E047]"), w)
    | Some _ =>
        (Ok (mkDoc (doc_vocab d)
                   (alter (set_underscore name value) i (tokens d))), w)
    end.

(** [token._.get(name)]: the stored value, else the registered default. *)
Definition Underscore_get (name : string) (t : Token) : M PyVal :=
  fun w =>
    match token_extensions w !! name with
    | None => (Raise (Exception "AttributeError" "[E046]"), w)
    | Some default =>
        (Ok (match underscore t !! name with
             | Some v => v
             | None => default
             end), w)
    end.

End spacy.

(** ** The module itself *)

Import pyknp spacy.

Record ShortUnitWord : Type := mkShortUnitWord {
  surface : string;
  lemma : string;
  pos : string;
  fstring : string
}.

(** The attributes [Tokenizer.__init__] sets on [self]. *)
Record Tokenizer : Type := mkTokenizer {
  vocab : Vocab;
  tokenizer : JumanObj;
  key_fstring : string;
  preprocessor : option (string -> result string)
}.

Definition serialization_fields : list string :=
  ["preprocessor"; "juman_kwargs"].

(** A [Language] object: its vocabulary and, once built, its tokenizer. *)
Record Language : Type := mkLanguage {
  lang : string;
  Language_vocab : Vocab;
  Language_tokenizer : option Tokenizer
}.

(** Class objects that the pickle hook can name. *)
Inductive PyClass : Type :=
  | JapaneseClass.

#[global] Instance PyClass_eq_dec : EqDecision PyClass.
Proof. solve_decision. Defined.

Section Juman.

(** [bedoner.consts.KEY_FSTRING], the name of the custom attribute; the
    constant is defined outside this module. *)
Variable KEY_FSTRING : string.

(** The constructor of [pyknp.Juman], by its keyword arguments. *)
Variable Juman : gmap string string -> result JumanObj.

(** [Language.Defaults.create_vocab]. *)
Variable create_vocab : option Language -> Vocab.

(** *** Tokenizer *)

(** [Tokenizer.__init__(self, cls, nlp, juman_kwargs, preprocessor)];
    [cls] is only used for its [create_vocab].  In the first branch of
    the conditional [juman_kwargs] is a dict that is not empty. *)
Definition Tokenizer__init__ (nlp : option Language)
    (juman_kwargs : option (gmap string string))
    (preprocessor : option (string -> result string)) : M Tokenizer :=
  let vocab :=
    match nlp with
    | Some n => Language_vocab n
    | None => create_vocab nlp
    end in
  let* tokenizer :=
    lift (if truthy_dict juman_kwargs
          then Juman (default ∅ juman_kwargs)
          else Juman ∅) in
  let key_fstring := KEY_FSTRING in
  let* _ := Token_set_extension key_fstring (PyBool false) true in
  ret (mkTokenizer vocab tokenizer key_fstring preprocessor).

(** [self.tokenizer.analysis(text)], logged. *)
Definition Juman_analysis (j : JumanObj) (text : string) : M MList :=
  fun w =>
    (analysis j text,
     mkWorld (token_extensions w) (analysis_log w ++ [text])%list).

(** The body of the loop of [detailed_tokens]. *)
Definition detailed_token (m : Morpheme) : ShortUnitWord :=
  let surface := midasi m in
  let pos := hinsi m +:+ "/" +:+ bunrui m in
  let lemma := py_or (genkei m) surface in
  mkShortUnitWord surface lemma pos (pyknp.fstring m).

Definition Tokenizer_detailed_tokens (self : Tokenizer) (text : string)
  : M (list ShortUnitWord) :=
  let words : list ShortUnitWord := [] in
  let* r := Juman_analysis (tokenizer self) text in
  let ml := mrph_list r in
  ret (foldl (fun words m => (words ++ [detailed_token m])%list) words ml).

(** The body of the loop of [__call__]. *)
Definition assign_token (self : Tokenizer) (p : nat * ShortUnitWord)
    (doc : Doc) : M Doc :=
  let '(i, dtoken) := p in
  let doc := Token_set_lemma_ i (lemma dtoken) doc in
  let doc := Token_set_tag_ i (pos dtoken) doc in
  Underscore_set i (key_fstring self) (PyStr (fstring dtoken)) doc.

(** [for token, dtoken in zip(doc, dtokens): ...], the tokens of [doc]
    by their index. *)
Fixpoint assign_tokens (self : Tokenizer)
    (ps : list (nat * ShortUnitWord)) (doc : Doc) : M Doc :=
  match ps with
  | [] => ret doc
  | p :: ps' =>
      let* doc' := assign_token self p doc in
      assign_tokens self ps' doc'
  end.

(** The first statement of [__call__]: the text the analyzer is given. *)
Definition preprocess (self : Tokenizer) (text : string) : result string :=
  match preprocessor self with
  | Some f => f text
  | None => Ok text
  end.

Definition Tokenizer__call__ (self : Tokenizer) (text : string) : M Doc :=
  let* text := lift (preprocess self text) in
  let* dtokens := Tokenizer_detailed_tokens self text in
  let words := map surface dtokens in
  let spaces := replicate (length words) false in
  let* doc := lift (Doc_init (vocab self) words spaces) in
  assign_tokens self (zip (seq 0 (length (tokens doc))) dtokens) doc.

(** *** Defaults, Japanese *)

Definition Defaults_create_tokenizer (nlp : option Language)
    (juman_kwargs : option (gmap string string))
    (preprocessor : option (string -> result string)) : M Tokenizer :=
  Tokenizer__init__ nlp juman_kwargs preprocessor.

(** Constructing a [Japanese]: the host framework's [Language.__init__]
    creates the vocabulary, then calls the tokenizer factory on the
    language and on the tokenizer options found in [meta]. *)
Definition Japanese__init__
    (juman_kwargs : option (gmap string string))
    (preprocessor : option (string -> result string)) : M Language :=
  let self := mkLanguage "juman" (create_vocab None) None in
  let* make_doc :=
    Defaults_create_tokenizer (Some self) juman_kwargs preprocessor in
  ret (mkLanguage (lang self) (Language_vocab self) (Some make_doc)).

Definition Japanese_make_doc (self : Language) (text : string) : M Doc :=
  match Language_tokenizer self with
  | Some t => Tokenizer__call__ t text
  | None => lift (Raise (Exception "AttributeError" "tokenizer"))
  end.

Definition pickle_japanese (instance : Language) : PyClass * list PyVal :=
  (JapaneseClass, []).

(** [copy_reg.pickle(Japanese, pickle_japanese)]: the dispatch table
    after the module is imported. *)
Definition copy_reg_dispatch_table
  : list (PyClass * (Language -> PyClass * list PyVal)) :=
  [(JapaneseClass, pickle_japanese)].

(** The reducer registered for a class, if any. *)
Fixpoint dispatch (cls : PyClass)
    (table : list (PyClass * (Language -> PyClass * list PyVal)))
  : option (Language -> PyClass * list PyVal) :=
  match table with
  | [] => None
  | (c, f) :: table' =>
      if decide (c = cls) then Some f else dispatch cls table'
  end.

(** Unpickling a reduce value calls the class on the argument tuple.
    Only the call without arguments is modelled: no reducer of this
    module produces another. *)
Definition reconstruct (r : PyClass * list PyVal) : option (M Language) :=
  match r with
  | (JapaneseClass, []) => Some (Japanese__init__ None None)
  | (JapaneseClass, _ :: _) => None
  end.

End Juman.

(** ** What a finished token holds *)

(** The three assignments of the loop of [__call__] on one token. *)
Definition finish_token (voc : Vocab) (key : string) (t : Token)
    (d : ShortUnitWord) : Token :=
  set_underscore key (PyStr (fstring d))
    (set_tag_ voc (pos d) (set_lemma_ (lemma d) t)).

(** The token a morphological unit ends up as in a document on the
    vocabulary [voc]. *)
Definition token_of (voc : Vocab) (key : string) (m : Morpheme) : Token :=
  finish_token voc key (new_token (midasi m) false) (detailed_token m).

(** No unit has a zero-length surface form. *)
Definition surfaces_nonempty (r : MList) : Prop :=
  "" ∉ map midasi (mrph_list r).

(** The custom attribute is declared on the token class. *)
Definition registered (key : string) (w : World) : Prop :=
  is_Some (token_extensions w !! key).

(** The world after one more call of the analyzer on [text]. *)
Definition logged (text : string) (w : World) : World :=
  mkWorld (token_extensions w) (analysis_log w ++ [text])%list.

(** The same adapter with no preprocessing function configured. *)
Definition without_preprocessor (self : Tokenizer) : Tokenizer :=
  mkTokenizer (vocab self) (tokenizer self) (key_fstring self) None.

(** The dictionary actually handed to the analyzer's constructor. *)
Definition constructor_kwargs (juman_kwargs : option (gmap string string))
  : gmap string string :=
  default ∅ juman_kwargs.

(** ** Defaults: lexical attribute getters

    [lex_attr_getters = dict(Language.Defaults.lex_attr_getters)]
    followed by [lex_attr_getters[LANG] = lambda _text: "juman"]: a copy
    of the host framework's getters, by attribute id, with the language
    getter replaced. *)
Definition Defaults_lex_attr_getters (LANG : nat)
    (base : gmap nat (string -> PyVal)) : gmap nat (string -> PyVal) :=
  let lex_attr_getters := base in
  <[LANG := fun _text => PyStr "juman"]> lex_attr_getters.

(** [self.preprocessor(text) if self.preprocessor else text], for the
    preprocessor an adapter is configured with. *)
Definition preprocessed (pre : option (string -> result string))
    (text : string) : result string :=
  match pre with
  | Some f => f text
  | None => Ok text
  end.

(** ** A concrete analyzer, for closed instances of the theorems *)

Module Sample.

Definition KEY : string := "juman_fstring".

Definition tokyo : Morpheme :=
  mkMorpheme "Tokyo" (Some "Tokyo") "noun" "place" "<place:Tokyo>".
Definition desu : Morpheme :=
  mkMorpheme "desu" (Some "da") "copula" "*" "<copula>".
Definition blank_form : Morpheme :=
  mkMorpheme "x" (Some "") "special" "symbol" "NIL".
Definition no_form : Morpheme :=
  mkMorpheme "y" None "special" "symbol" "NIL".

(** An analyzer that fails on the text [boom] and otherwise reports the
    same four units. *)
Definition units : MList := mkMList [tokyo; desu; blank_form; no_form].

Definition analysis_failed : exn := Exception "RuntimeError" "analysis failed".

Definition juman : JumanObj :=
  mkJuman (fun text =>
    if String.eqb text "boom" then Raise analysis_failed else Ok units).

(** A constructor that refuses the option [bad]. *)
Definition Juman (kwargs : gmap string string) : result JumanObj :=
  match kwargs !! "bad" with
  | Some _ => Raise (Exception "TypeError" "unexpected keyword argument")
  | None => Ok juman
  end.

(** A vocabulary with a tag map of coarse tags, whose morphology takes
    the text of a token for its lemma. *)
Definition voc : Vocab :=
  mkVocab 0 {[ "NOUN"; "VERB"; "_SP" ]} (fun tag _ => tag)
          (fun _ t => spacy.text t).

Definition create_vocab (nlp : option Language) : Vocab := voc.

(** A preprocessor that fails on the empty text and otherwise appends an
    exclamation mark. *)
Definition shout (text : string) : result string :=
  if String.eqb text ""
  then Raise (Exception "ValueError" "empty text")
  else Ok (text +:+ "!").

Definition w0 : World := mkWorld ∅ [].
Definition w1 : World := mkWorld {[ KEY := PyBool false ]} [].

Definition tok : Tokenizer := mkTokenizer voc juman KEY (Some shout).
Definition tok_plain : Tokenizer := mkTokenizer voc juman KEY None.

End Sample.

(** Edge cases: an analyzer that reports no unit at all. *)
Module Edge.

Definition silent : JumanObj := mkJuman (fun _ => Ok (mkMList [])).

Definition tok : Tokenizer :=
  mkTokenizer Sample.voc silent Sample.KEY None.

(** An analyzer that reports a unit with a zero-length surface form
    between two ordinary units. *)
Definition hollow_units : MList :=
  mkMList [Sample.tokyo;
           mkMorpheme "" (Some "") "special" "symbol" "NIL";
           Sample.desu].

Definition hollow : JumanObj := mkJuman (fun _ => Ok hollow_units).

Definition tok_hollow : Tokenizer :=
  mkTokenizer Sample.voc hollow Sample.KEY None.

(** Options for the analyzer's constructor. *)
Definition options : gmap string string := {[ "command" := "jumanpp" ]}.

End Edge.

(** ** Properties *)

Section Properties.

Variable KEY_FSTRING : string.
Variable Juman : gmap string string -> result JumanObj.
Variable create_vocab : option Language -> Vocab.

Local Abbreviation init := (Tokenizer__init__ KEY_FSTRING Juman create_vocab).

(** *** The loops *)

(** The accumulating loop of [detailed_tokens] is a map over the units. *)
Lemma foldl_append_map (acc : list ShortUnitWord) (ml : list Morpheme) :
  foldl (fun words m => (words ++ [detailed_token m])%list) acc ml
  = (acc ++ map detailed_token ml)%list.
Proof.
  revert acc. induction ml as [|m ml IH]; intros acc; simpl.
  - by rewrite app_nil_r.
  - rewrite IH, <- app_assoc. done.
Qed.

Lemma detailed_tokens_run (self : Tokenizer) (text : string) (w : World) :
  Tokenizer_detailed_tokens self text w
  = match analysis (tokenizer self) text with
    | Ok r => (Ok (map detailed_token (mrph_list r)), logged text w)
    | Raise e => (Raise e, logged text w)
    end.
Proof.
  unfold Tokenizer_detailed_tokens, bind, Juman_analysis, ret, logged.
  destruct (analysis (tokenizer self) text) as [r|e]; [|done].
  by rewrite foldl_append_map.
Qed.

(** One turn of the loop of [__call__] rewrites the slot it is given. *)
Lemma assign_token_run (self : Tokenizer) (w : World) (v : Vocab)
    (pre ts : list Token) (t : Token) (d : ShortUnitWord) :
  registered (key_fstring self) w ->
  assign_token self (length pre, d) (mkDoc v (pre ++ t :: ts)) w
  = (Ok (mkDoc v (pre ++ finish_token v (key_fstring self) t d :: ts)), w).
Proof.
  intros [dflt Hreg].
  unfold assign_token, Underscore_set, Token_set_tag_, Token_set_lemma_.
  cbn [doc_vocab tokens]. rewrite Hreg.
  rewrite !alter_app_r_alt, !Nat.sub_diag by (rewrite ?length_alter; lia).
  done.
Qed.

(** The whole loop, started at slot [length pre], finishes the remaining
    tokens in order and leaves the earlier ones alone. *)
Lemma assign_tokens_run (self : Tokenizer) (w : World) (v : Vocab)
    (ts : list Token) :
  registered (key_fstring self) w ->
  forall (pre : list Token) (ds : list ShortUnitWord),
    length ts = length ds ->
    assign_tokens self (zip (seq (length pre) (length ts)) ds)
                  (mkDoc v (pre ++ ts)) w
    = (Ok (mkDoc v (pre ++ zip_with (finish_token v (key_fstring self))
                                    ts ds)),
       w).
Proof.
  intros Hreg. induction ts as [|t ts IH]; intros pre [|d ds] Hlen;
    try discriminate Hlen; [done|].
  injection Hlen as Hlen.
  cbn [length seq zip_with assign_tokens].
  unfold bind. rewrite assign_token_run by done.
  specialize (IH (pre ++ [finish_token v (key_fstring self) t d])%list ds).
  rewrite length_app, Nat.add_1_r in IH; simpl in IH.
  rewrite <- !app_assoc in IH. simpl in IH. apply IH. done.
Qed.

(** Without the registration the first turn of the loop raises. *)
Lemma assign_token_unregistered (self : Tokenizer) (w : World) (i : nat)
    (d : ShortUnitWord) (doc : Doc) :
  token_extensions w !! key_fstring self = None ->
  assign_token self (i, d) doc w
  = (Raise (Exception "AttributeError" "[E047]"), w).
Proof.
  intros Hreg. unfold assign_token, Underscore_set. by rewrite Hreg.
Qed.

Lemma zip_with_new_token_false (ms : list Morpheme) (v : Vocab)
    (key : string) :
  zip_with (finish_token v key)
    (zip_with new_token (map surface (map detailed_token ms))
       (replicate (length (map surface (map detailed_token ms))) false))
    (map detailed_token ms)
  = map (token_of v key) ms.
Proof.
  induction ms as [|m ms IH]; simpl; [done|].
  f_equal. apply IH.
Qed.

(** The words the document is built from are the units' surface forms. *)
Lemma surfaces_of_detailed_tokens (ms : list Morpheme) :
  map surface (map detailed_token ms) = map midasi ms.
Proof. rewrite map_map. by apply map_ext. Qed.

(** The document constructor on the words of a call. *)
Lemma Doc_init_words (v : Vocab) (ms : list Morpheme) :
  Doc_init v (map surface (map detailed_token ms))
    (replicate (length (map surface (map detailed_token ms))) false)
  = if decide ("" ∈ map midasi ms)
    then Raise (Exception "ValueError" "[E031]")
    else Ok (mkDoc v
               (zip_with new_token (map surface (map detailed_token ms))
                  (replicate (length (map surface (map detailed_token ms)))
                     false))).
Proof.
  unfold Doc_init. rewrite length_replicate.
  case_decide; [|done]. rewrite surfaces_of_detailed_tokens.
  by repeat case_decide.
Qed.

(** *** One call of the adapter *)

(** A call on a text whose preprocessing and analysis succeed, and for
    which no unit has an empty surface form, returns the units' tokens
    in order and logs the analyzed text. *)
Lemma call_run (self : Tokenizer) (text text' : string) (r : MList)
    (w : World) :
  registered (key_fstring self) w ->
  preprocess self text = Ok text' ->
  analysis (tokenizer self) text' = Ok r ->
  surfaces_nonempty r ->
  Tokenizer__call__ self text w
  = (Ok (mkDoc (vocab self)
           (map (token_of (vocab self) (key_fstring self)) (mrph_list r))),
     logged text' w).
Proof.
  intros Hreg Hpre Hana Hsurf.
  unfold Tokenizer__call__, bind at 1, lift at 1. rewrite Hpre.
  unfold bind at 1. rewrite detailed_tokens_run, Hana.
  unfold bind, lift. rewrite Doc_init_words.
  case_decide; [by destruct Hsurf|]. cbn [tokens].
  pose proof (assign_tokens_run self (logged text' w) (vocab self)
    (zip_with new_token (map surface (map detailed_token (mrph_list r)))
       (replicate (length (map surface (map detailed_token (mrph_list r))))
          false)) Hreg [] (map detailed_token (mrph_list r))) as Hrun.
  simpl in Hrun. rewrite Hrun.
  - by rewrite zip_with_new_token_false.
  - rewrite length_zip_with_l_eq; rewrite ?length_replicate, ?length_map; done.
Qed.

(** The returned tokens, slot by slot. *)
Lemma call_tokens (self : Tokenizer) (txt txt' : string) (r : MList)
    (w : World) :
  registered (key_fstring self) w ->
  preprocess self txt = Ok txt' ->
  analysis (tokenizer self) txt' = Ok r ->
  surfaces_nonempty r ->
  exists doc,
    Tokenizer__call__ self txt w = (Ok doc, logged txt' w)
    /\ tokens doc
       = map (token_of (vocab self) (key_fstring self)) (mrph_list r)
    /\ forall i t, tokens doc !! i = Some t ->
         exists m, mrph_list r !! i = Some m
                   /\ t = token_of (vocab self) (key_fstring self) m.
Proof.
  intros Hreg Hpre Hana Hsurf. eexists. split; [by apply call_run|].
  split; [done|]. simpl. intros i t Hi.
  rewrite list_lookup_fmap in Hi.
  destruct (mrph_list r !! i) as [m|]; simplify_eq/=. by exists m.
Qed.

(** What the finished token of a unit holds.  Its text, its space flag
    and its detail string do not depend on the tag map. *)
Lemma token_of_text (v : Vocab) (key : string) (m : Morpheme) :
  spacy.text (token_of v key m) = midasi m.
Proof.
  unfold token_of, finish_token, set_tag_. by case_decide.
Qed.

Lemma token_of_whitespace (v : Vocab) (key : string) (m : Morpheme) :
  whitespace (token_of v key m) = false.
Proof.
  unfold token_of, finish_token, set_tag_. by case_decide.
Qed.

Lemma token_of_underscore (v : Vocab) (key : string) (m : Morpheme) :
  underscore (token_of v key m) !! key = Some (PyStr (pyknp.fstring m)).
Proof.
  unfold token_of, finish_token, set_tag_.
  case_decide; cbn; by rewrite lookup_insert_eq.
Qed.


(** The loop of [__call__] never writes the world. *)
Lemma assign_tokens_world (self : Tokenizer)
    (ps : list (nat * ShortUnitWord)) (doc : Doc) (w : World) :
  snd (assign_tokens self ps doc w) = w.
Proof.
  revert doc. induction ps as [|[i d] ps IH]; intros doc; simpl; [done|].
  unfold bind, Underscore_set.
  destruct (token_extensions w !! key_fstring self); [apply IH|done].
Qed.


Lemma append_empty_r (s : string) : s +:+ "" = s.
Proof.
  induction s as [|a s IH]; [done|].
  change (String a (s +:+ "") = String a s). by rewrite IH.
Qed.

Lemma truthy_dict_kwargs (kw : option (gmap string string)) :
  (if truthy_dict kw then Juman (default ∅ kw) else Juman ∅)
  = Juman (constructor_kwargs kw).
Proof.
  unfold constructor_kwargs. destruct kw as [d|]; simpl; [|done].
  case_bool_decide; simpl; [by subst|done].
Qed.

(** Constructing the adapter: the analyzer is built first, then the
    attribute is registered. *)
Lemma init_run (nlp : option Language) (kw : option (gmap string string))
    (pre : option (string -> result string)) (w : World) :
  init nlp kw pre w
  = match Juman (constructor_kwargs kw) with
    | Ok j =>
        (Ok (mkTokenizer
               (match nlp with
                | Some n => Language_vocab n
                | None => create_vocab nlp
                end) j KEY_FSTRING pre),
         mkWorld (<[KEY_FSTRING := PyBool false]> (token_extensions w))
                 (analysis_log w))
    | Raise e => (Raise e, w)
    end.
Proof.
  unfold Tokenizer__init__, bind at 1, lift. rewrite truthy_dict_kwargs.
  destruct (Juman (constructor_kwargs kw)) as [j|e]; [|done].
  unfold bind, Token_set_extension, ret. by rewrite andb_false_r.
Qed.

(** *** The claims about the returned document

    A document is returned when the detail-string attribute is
    registered on the token class (construction leaves it so), when
    preprocessing and analysis succeed, and when no unit has an empty
    surface form (the document constructor refuses an empty word). *)

(** Opens a claim about a successful call: names the returned document
    and the unit behind a given token. *)
Ltac returned_doc Hreg Hpre Hana Hsurf d Hcall Htoks Hslot :=
  destruct (call_tokens _ _ _ _ _ Hreg Hpre Hana Hsurf)
    as (d & Hcall & Htoks & Hslot);
  exists d; split; [by rewrite Hcall|].

Ltac unit_of Hslot Hi m Hm :=
  destruct (Hslot _ _ Hi) as (m & Hm & ->); exists m; split; [exact Hm|].

(** C1: the document returned by the adapter has exactly one token per
    morphological unit the analyzer reports for the (possibly
    preprocessed) text, in the analyzer's order: the sequence of token
    texts is the sequence of the units' surface forms. *)
Theorem call_one_token_per_unit (self : Tokenizer) (txt txt' : string)
    (r : MList) (w : World) :
  registered (key_fstring self) w ->
  preprocess self txt = Ok txt' ->
  analysis (tokenizer self) txt' = Ok r ->
  surfaces_nonempty r ->
  exists doc,
    fst (Tokenizer__call__ self txt w) = Ok doc
    /\ length (tokens doc) = length (mrph_list r)
    /\ map spacy.text (tokens doc) = map midasi (mrph_list r).
Proof.
  intros Hreg Hpre Hana Hsurf.
  returned_doc Hreg Hpre Hana Hsurf doc Hcall Htoks Hslot.
  rewrite Htoks, length_map. split; [done|].
  rewrite map_map. apply map_ext. intros m. apply token_of_text.
Qed.



(** C4: on every token of the returned document, reading the custom
    detail-string attribute gives the raw annotation string (fstring) of
    the token's unit, unaltered. *)
Theorem call_detail_is_fstring (self : Tokenizer) (txt txt' : string)
    (r : MList) (w : World) :
  registered (key_fstring self) w ->
  preprocess self txt = Ok txt' ->
  analysis (tokenizer self) txt' = Ok r ->
  surfaces_nonempty r ->
  exists doc,
    fst (Tokenizer__call__ self txt w) = Ok doc
    /\ forall i t, tokens doc !! i = Some t ->
         exists m, mrph_list r !! i = Some m
           /\ underscore t !! key_fstring self = Some (PyStr (pyknp.fstring m))
           /\ fst (Underscore_get (key_fstring self) t
                     (snd (Tokenizer__call__ self txt w)))
              = Ok (PyStr (pyknp.fstring m)).
Proof.
  intros Hreg Hpre Hana Hsurf.
  returned_doc Hreg Hpre Hana Hsurf doc Hcall Htoks Hslot.
  intros i t Hi. unit_of Hslot Hi m Hm.
  rewrite Hcall. unfold Underscore_get. cbn [snd logged token_extensions].
  destruct Hreg as [dflt ->]. cbn [fst].
  by rewrite token_of_underscore.
Qed.

(** C5: every token of the returned document is marked as not followed
    by a space, so the document's text, and the token texts joined with
    no separator, are the analyzer's surface strings joined with no
    separator. *)
Theorem call_no_spaces (self : Tokenizer) (txt txt' : string)
    (r : MList) (w : World) :
  registered (key_fstring self) w ->
  preprocess self txt = Ok txt' ->
  analysis (tokenizer self) txt' = Ok r ->
  surfaces_nonempty r ->
  exists doc,
    fst (Tokenizer__call__ self txt w) = Ok doc
    /\ (forall i t, tokens doc !! i = Some t -> whitespace t = false)
    /\ Doc_text doc = String.concat "" (map midasi (mrph_list r))
    /\ String.concat "" (map spacy.text (tokens doc))
       = String.concat "" (map midasi (mrph_list r)).
Proof.
  intros Hreg Hpre Hana Hsurf.
  returned_doc Hreg Hpre Hana Hsurf doc Hcall Htoks Hslot.
  split; [|split].
  - intros i t Hi. destruct (Hslot _ _ Hi) as (m & _ & ->).
    apply token_of_whitespace.
  - unfold Doc_text. rewrite Htoks. clear.
    induction (mrph_list r) as [|m ms IH]; [done|].
    cbn [map foldr]. rewrite IH, token_of_text, token_of_whitespace.
    destruct ms as [|m' ms]; [exact (append_empty_r (midasi m))|reflexivity].
  - rewrite Htoks, map_map. f_equal. apply map_ext.
    intros m. apply token_of_text.
Qed.


(** *** Preprocessing, errors, registration, pickling *)

(** Once preprocessing has succeeded, the call hands the analyzer the
    preprocessed text, once, whatever happens afterwards. *)
Lemma call_log (self : Tokenizer) (txt txt' : string) (w : World) :
  preprocess self txt = Ok txt' ->
  analysis_log (snd (Tokenizer__call__ self txt w))
  = (analysis_log w ++ [txt'])%list.
Proof.
  intros Hpre. unfold Tokenizer__call__, bind at 1, lift at 1.
  rewrite Hpre. unfold bind at 1. rewrite detailed_tokens_run.
  destruct (analysis (tokenizer self) txt') as [r|e]; [|done].
  unfold bind, lift.
  destruct (Doc_init _ _ _) as [doc|e]; [|done].
  by rewrite assign_tokens_world.
Qed.

(** The loop of [__call__] reads nothing of the adapter but the name of
    the custom attribute. *)
Lemma assign_tokens_same_key (a b : Tokenizer)
    (ps : list (nat * ShortUnitWord)) (doc : Doc) (w : World) :
  key_fstring a = key_fstring b ->
  assign_tokens a ps doc w = assign_tokens b ps doc w.
Proof.
  intros Hkey. revert doc. induction ps as [|[i d] ps IH]; intros doc;
    simpl; [done|].
  unfold bind, Underscore_set. rewrite Hkey.
  destruct (token_extensions w !! key_fstring b); [apply IH|done].
Qed.

(** C6: when a preprocessing function is configured, the analyzer is
    invoked on that function's output for the input text, not on the
    input text, and the call is the call of the adapter without
    preprocessing on that output; when none is configured, the analyzer
    is invoked on the input text itself. *)
Theorem call_analyzes_preprocessed_text (self : Tokenizer) (txt : string)
    (w : World) :
  (forall f txt',
     preprocessor self = Some f -> f txt = Ok txt' ->
     analysis_log (snd (Tokenizer__call__ self txt w))
     = (analysis_log w ++ [txt'])%list
     /\ Tokenizer__call__ self txt w
        = Tokenizer__call__ (without_preprocessor self) txt' w)
  /\ (preprocessor self = None ->
      analysis_log (snd (Tokenizer__call__ self txt w))
      = (analysis_log w ++ [txt])%list).
Proof.
  split.
  - intros f txt' Hf Hout.
    assert (preprocess self txt = Ok txt') as Hpre
      by (unfold preprocess; by rewrite Hf).
    split; [by apply call_log|].
    unfold Tokenizer__call__, bind, lift. rewrite Hpre.
    change (preprocess (without_preprocessor self) txt') with (@Ok string txt').
    rewrite !detailed_tokens_run.
    change (tokenizer (without_preprocessor self)) with (tokenizer self).
    change (vocab (without_preprocessor self)) with (vocab self).
    destruct (analysis (tokenizer self) txt') as [r|e]; [|done].
    destruct (Doc_init _ _ _) as [doc|e]; [|done].
    by apply assign_tokens_same_key.
  - intros Hnone. apply call_log. unfold preprocess. by rewrite Hnone.
Qed.

(** C8: an error raised by the preprocessing function or by the
    analyzer during a call, or by the analyzer's constructor during
    construction, is the error the adapter raises, unchanged. *)
Theorem errors_propagate_unchanged (self : Tokenizer) (txt : string)
    (w : World) (e : exn) :
  (forall f,
     preprocessor self = Some f -> f txt = Raise e ->
     Tokenizer__call__ self txt w = (Raise e, w))
  /\ (forall txt',
        preprocess self txt = Ok txt' ->
        analysis (tokenizer self) txt' = Raise e ->
        fst (Tokenizer__call__ self txt w) = Raise e)
  /\ (forall nlp kw pre,
        Juman (constructor_kwargs kw) = Raise e ->
        init nlp kw pre w = (Raise e, w)).
Proof.
  split; [|split].
  - intros f Hf Hraise.
    unfold Tokenizer__call__, bind, lift, preprocess. by rewrite Hf, Hraise.
  - intros txt' Hpre Hraise.
    unfold Tokenizer__call__, bind at 1, lift at 1. rewrite Hpre.
    unfold bind. by rewrite detailed_tokens_run, Hraise.
  - intros nlp kw pre Hraise. by rewrite init_run, Hraise.
Qed.

(** C9: a successful construction of the adapter registers the
    detail-string attribute on the token class, with default [False];
    a second construction, successful or not, then leaves the world as
    the first one left it, and does not fail on the existing
    registration. *)
Theorem init_registration_idempotent (nlp : option Language)
    (kw : option (gmap string string))
    (pre : option (string -> result string))
    (w w1 : World) (tk : Tokenizer) :
  init nlp kw pre w = (Ok tk, w1) ->
  token_extensions w1 = <[KEY_FSTRING := PyBool false]> (token_extensions w)
  /\ registered (key_fstring tk) w1
  /\ (forall nlp' kw' pre', snd (init nlp' kw' pre' w1) = w1)
  /\ (forall nlp' kw' pre' j,
        Juman (constructor_kwargs kw') = Ok j ->
        exists tk', init nlp' kw' pre' w1 = (Ok tk', w1)).
Proof.
  rewrite init_run.
  destruct (Juman (constructor_kwargs kw)) as [j|e]; [|done].
  intros [= <- <-]. simpl.
  split; [done|]. split.
  - unfold registered. simpl. rewrite lookup_insert_eq. by eexists.
  - split.
    + intros nlp' kw' pre'. rewrite init_run.
      destruct (Juman (constructor_kwargs kw')) as [j'|e']; [|done].
      simpl. by rewrite insert_insert_eq.
    + intros nlp' kw' pre' j' Hj. rewrite init_run, Hj. simpl.
      rewrite insert_insert_eq. by eexists.
Qed.

(** C7: the reducer registered for the Japanese class returns, for
    every instance, the class and an empty argument tuple; unpickling
    that value constructs a fresh [Japanese] with no tokenizer options,
    whose adapter has no preprocessing function and a default analyzer,
    whatever the pickled instance was configured with.  The adapter's
    declared serialization fields are the preprocessor and the
    analyzer's construction arguments, in that order. *)
Theorem pickle_japanese_drops_configuration (instance : Language) :
  dispatch JapaneseClass copy_reg_dispatch_table = Some pickle_japanese
  /\ pickle_japanese instance = (JapaneseClass, [])
  /\ reconstruct KEY_FSTRING Juman create_vocab (pickle_japanese instance)
     = Some (Japanese__init__ KEY_FSTRING Juman create_vocab None None)
  /\ (forall w,
        Japanese__init__ KEY_FSTRING Juman create_vocab None None w
        = match Juman ∅ with
          | Ok j =>
              (Ok (mkLanguage "juman" (create_vocab None)
                     (Some (mkTokenizer (create_vocab None) j
                                        KEY_FSTRING None))),
               mkWorld (<[KEY_FSTRING := PyBool false]> (token_extensions w))
                       (analysis_log w))
          | Raise e => (Raise e, w)
          end)
  /\ serialization_fields = ["preprocessor"; "juman_kwargs"].
Proof.
  repeat split.
  intros w. unfold Japanese__init__, Defaults_create_tokenizer, bind.
  rewrite init_run. unfold constructor_kwargs. simpl.
  by destruct (Juman ∅).
Qed.

End Properties.

(** ** Closed instances on the sample analyzer *)

(** Decides a closed side condition by evaluation. *)
Ltac by_evaluation :=
  unfold surfaces_nonempty; apply (bool_decide_unpack _); vm_compute;
  exact I.

Lemma call_one_token_per_unit_witness :
  exists doc,
    fst (Tokenizer__call__ Sample.tok "abc" Sample.w1) = Ok doc
    /\ length (tokens doc) = 4
    /\ map spacy.text (tokens doc) = ["Tokyo"; "desu"; "x"; "y"].
Proof.
  apply (call_one_token_per_unit Sample.tok "abc" "abc!" Sample.units
           Sample.w1).
  - exists (PyBool false). reflexivity.
  - reflexivity.
  - reflexivity.
  - by_evaluation.
Defined.



Lemma call_detail_is_fstring_witness :
  exists doc,
    fst (Tokenizer__call__ Sample.tok "abc" Sample.w1) = Ok doc
    /\ forall i t, tokens doc !! i = Some t ->
         exists m, mrph_list Sample.units !! i = Some m
           /\ underscore t !! Sample.KEY = Some (PyStr (pyknp.fstring m))
           /\ fst (Underscore_get Sample.KEY t
                     (snd (Tokenizer__call__ Sample.tok "abc" Sample.w1)))
              = Ok (PyStr (pyknp.fstring m)).
Proof.
  apply (call_detail_is_fstring Sample.tok "abc" "abc!" Sample.units
           Sample.w1).
  - exists (PyBool false). reflexivity.
  - reflexivity.
  - reflexivity.
  - by_evaluation.
Defined.

Lemma call_no_spaces_witness :
  exists doc,
    fst (Tokenizer__call__ Sample.tok "abc" Sample.w1) = Ok doc
    /\ (forall i t, tokens doc !! i = Some t -> whitespace t = false)
    /\ Doc_text doc = "Tokyodesuxy"
    /\ String.concat "" (map spacy.text (tokens doc)) = "Tokyodesuxy".
Proof.
  apply (call_no_spaces Sample.tok "abc" "abc!" Sample.units Sample.w1).
  - exists (PyBool false). reflexivity.
  - reflexivity.
  - reflexivity.
  - by_evaluation.
Defined.


Lemma call_analyzes_preprocessed_text_witness :
  (analysis_log (snd (Tokenizer__call__ Sample.tok "abc" Sample.w1))
   = ["abc!"]
   /\ Tokenizer__call__ Sample.tok "abc" Sample.w1
      = Tokenizer__call__ (without_preprocessor Sample.tok) "abc!" Sample.w1)
  /\ analysis_log (snd (Tokenizer__call__ Sample.tok_plain "abc" Sample.w1))
     = ["abc"].
Proof.
  split.
  - apply (proj1 (call_analyzes_preprocessed_text Sample.tok "abc" Sample.w1)
             Sample.shout "abc!"); reflexivity.
  - apply (proj2 (call_analyzes_preprocessed_text Sample.tok_plain "abc"
                    Sample.w1)); reflexivity.
Defined.

Lemma errors_propagate_unchanged_witness :
  Tokenizer__call__ Sample.tok "" Sample.w1
  = (Raise (Exception "ValueError" "empty text"), Sample.w1)
  /\ fst (Tokenizer__call__ Sample.tok_plain "boom" Sample.w1)
     = Raise Sample.analysis_failed
  /\ Tokenizer__init__ Sample.KEY Sample.Juman Sample.create_vocab None
       (Some {[ "bad" := "1" ]}) None Sample.w0
     = (Raise (Exception "TypeError" "unexpected keyword argument"),
        Sample.w0).
Proof.
  split; [|split].
  - apply (proj1 (errors_propagate_unchanged Sample.KEY
             Sample.Juman Sample.create_vocab Sample.tok "" Sample.w1 _)
             Sample.shout); reflexivity.
  - apply (proj1 (proj2 (errors_propagate_unchanged Sample.KEY
             Sample.Juman Sample.create_vocab Sample.tok_plain "boom"
             Sample.w1 _)) "boom"); reflexivity.
  - apply (proj2 (proj2 (errors_propagate_unchanged Sample.KEY
             Sample.Juman Sample.create_vocab Sample.tok "" Sample.w0 _))).
    reflexivity.
Defined.

Lemma init_registration_idempotent_witness :
  token_extensions Sample.w1
  = <[Sample.KEY := PyBool false]> (token_extensions Sample.w0)
  /\ registered (key_fstring Sample.tok_plain) Sample.w1
  /\ (forall nlp' kw' pre',
        snd (Tokenizer__init__ Sample.KEY Sample.Juman Sample.create_vocab
               nlp' kw' pre' Sample.w1) = Sample.w1)
  /\ (forall nlp' kw' pre' j,
        Sample.Juman (constructor_kwargs kw') = Ok j ->
        exists tk',
          Tokenizer__init__ Sample.KEY Sample.Juman Sample.create_vocab
            nlp' kw' pre' Sample.w1 = (Ok tk', Sample.w1)).
Proof.
  apply (init_registration_idempotent Sample.KEY Sample.Juman
           Sample.create_vocab None None None Sample.w0 Sample.w1
           Sample.tok_plain).
  reflexivity.
Defined.

(** ** Further properties of the module *)

Section Coverage.

Variable KEY_FSTRING : string.
Variable Juman : gmap string string -> result JumanObj.
Variable create_vocab : option Language -> Vocab.

Local Abbreviation init' :=
  (Tokenizer__init__ KEY_FSTRING Juman create_vocab).
Local Abbreviation Japanese' :=
  (Japanese__init__ KEY_FSTRING Juman create_vocab).

(** Constructing the language and then making a document, step by step. *)
Lemma make_doc_run (kw : option (gmap string string))
    (pre : option (string -> result string)) (w : World) (j : JumanObj)
    (txt txt' : string) (r : MList) :
  Juman (constructor_kwargs kw) = Ok j ->
  preprocessed pre txt = Ok txt' ->
  analysis j txt' = Ok r ->
  surfaces_nonempty r ->
  exists lang w1,
    Japanese' kw pre w = (Ok lang, w1)
    /\ Language_tokenizer lang
       = Some (mkTokenizer (Language_vocab lang) j KEY_FSTRING pre)
    /\ Japanese_make_doc lang txt w1
       = (Ok (mkDoc (Language_vocab lang)
                    (map (token_of (Language_vocab lang) KEY_FSTRING)
                         (mrph_list r))),
          logged txt' w1).
Proof.
  intros Hj Hpre Hana Hsurf.
  unfold Japanese__init__, Defaults_create_tokenizer, bind.
  rewrite init_run, Hj. cbn [Language_vocab lang ret].
  eexists. eexists. split; [reflexivity|]. split; [reflexivity|].
  unfold Japanese_make_doc. cbn [Language_tokenizer Language_vocab].
  apply (call_run (mkTokenizer (create_vocab None) j KEY_FSTRING pre)
           txt txt' r); [|exact Hpre|exact Hana|exact Hsurf].
  unfold registered. cbn. rewrite lookup_insert_eq. by eexists.
Qed.

Lemma call_world (self : Tokenizer) (txt : string) (w : World) :
  snd (Tokenizer__call__ self txt w)
  = match preprocess self txt with
    | Ok txt' => logged txt' w
    | Raise _ => w
    end.
Proof.
  unfold Tokenizer__call__, bind at 1, lift at 1.
  destruct (preprocess self txt) as [txt'|e]; [|done].
  unfold bind at 1. rewrite detailed_tokens_run.
  destruct (analysis (tokenizer self) txt') as [r|e]; [|done].
  unfold bind, lift. destruct (Doc_init _ _ _) as [doc|e]; [|done].
  by rewrite assign_tokens_world.
Qed.

(** X1: a language constructed with any options, from any state of the
    token class, can make documents at once: when the analyzer can be
    built, preprocessing and analysis of the text succeed and no unit
    has an empty surface form, [Japanese(...)] followed by
    [make_doc(text)] returns the document of the units' tokens, in
    order, on the language's own vocabulary. *)
Theorem make_doc_after_construction (kw : option (gmap string string))
    (pre : option (string -> result string)) (w : World) (j : JumanObj)
    (txt txt' : string) (r : MList) :
  Juman (constructor_kwargs kw) = Ok j ->
  preprocessed pre txt = Ok txt' ->
  analysis j txt' = Ok r ->
  surfaces_nonempty r ->
  exists lang w1 doc,
    Japanese' kw pre w = (Ok lang, w1)
    /\ fst (Japanese_make_doc lang txt w1) = Ok doc
    /\ doc_vocab doc = Language_vocab lang
    /\ tokens doc
       = map (token_of (Language_vocab lang) KEY_FSTRING) (mrph_list r)
    /\ map spacy.text (tokens doc) = map midasi (mrph_list r).
Proof.
  intros Hj Hpre Hana Hsurf.
  destruct (make_doc_run kw pre w j txt txt' r Hj Hpre Hana Hsurf)
    as (lang & w1 & Hinit & _ & Hdoc).
  exists lang, w1. eexists. split; [exact Hinit|].
  rewrite Hdoc. repeat split. cbn [tokens].
  rewrite map_map. apply map_ext. intros m. apply token_of_text.
Qed.

(** X2: whatever its outcome, a call of the adapter leaves the registry
    of custom token attributes as it found it, and invokes the analyzer
    once on the preprocessed text if preprocessing succeeds and not at
    all if it raises. *)
Theorem call_keeps_registry (self : Tokenizer) (txt : string) (w : World) :
  token_extensions (snd (Tokenizer__call__ self txt w)) = token_extensions w
  /\ analysis_log (snd (Tokenizer__call__ self txt w))
     = match preprocess self txt with
       | Ok txt' => (analysis_log w ++ [txt'])%list
       | Raise _ => analysis_log w
       end.
Proof.
  rewrite call_world. by destruct (preprocess self txt).
Qed.

(** X3: when the detail-string attribute is not registered on the token
    class and the analyzer reports at least one unit, none with an empty
    surface form, the call raises the host framework's [AttributeError]
    from the first assignment of the attribute, after the analyzer has
    been invoked. *)
Theorem call_unregistered_raises (self : Tokenizer) (txt txt' : string)
    (r : MList) (w : World) :
  token_extensions w !! key_fstring self = None ->
  preprocess self txt = Ok txt' ->
  analysis (tokenizer self) txt' = Ok r ->
  mrph_list r <> [] ->
  surfaces_nonempty r ->
  Tokenizer__call__ self txt w
  = (Raise (Exception "AttributeError" "[E047]"), logged txt' w).
Proof.
  intros Hreg Hpre Hana Hne Hsurf.
  unfold Tokenizer__call__, bind at 1, lift at 1. rewrite Hpre.
  unfold bind at 1. rewrite detailed_tokens_run, Hana.
  unfold bind, lift. rewrite Doc_init_words.
  case_decide; [by destruct Hsurf|].
  destruct (mrph_list r) as [|m ms]; [done|].
  cbn [map replicate length zip_with tokens seq assign_tokens].
  unfold bind. by rewrite assign_token_unregistered.
Qed.

(** X4: when the analyzer reports no unit, the call returns the empty
    document, whose text is empty, whether or not the detail-string
    attribute is registered. *)
Theorem call_no_units (self : Tokenizer) (txt txt' : string)
    (r : MList) (w : World) :
  preprocess self txt = Ok txt' ->
  analysis (tokenizer self) txt' = Ok r ->
  mrph_list r = [] ->
  Tokenizer__call__ self txt w = (Ok (mkDoc (vocab self) []), logged txt' w)
  /\ Doc_text (mkDoc (vocab self) []) = "".
Proof.
  intros Hpre Hana Hnil. split; [|done].
  unfold Tokenizer__call__, bind at 1, lift at 1. rewrite Hpre.
  unfold bind at 1. by rewrite detailed_tokens_run, Hana, Hnil.
Qed.


(** X6: a successfully constructed adapter holds what it was given: the
    analyzer built with no arguments when the options are [None] or an
    empty dict and with the options themselves otherwise, the
    preprocessing function, the attribute name, and the vocabulary of
    the pipeline when one is passed, a created one otherwise.
    Construction never invokes the analyzer. *)
Theorem init_stores_configuration (nlp : option Language)
    (kw : option (gmap string string))
    (pre : option (string -> result string))
    (w w1 : World) (tk : Tokenizer) :
  init' nlp kw pre w = (Ok tk, w1) ->
  (kw = None \/ kw = Some ∅ -> Juman ∅ = Ok (tokenizer tk))
  /\ (forall d, kw = Some d -> d <> ∅ -> Juman d = Ok (tokenizer tk))
  /\ preprocessor tk = pre
  /\ key_fstring tk = KEY_FSTRING
  /\ vocab tk = match nlp with
                | Some n => Language_vocab n
                | None => create_vocab None
                end
  /\ analysis_log w1 = analysis_log w.
Proof.
  unfold Tokenizer__init__, bind at 1, lift.
  intros Hinit. split; [|split].
  - intros [->| ->]; simpl in Hinit;
      destruct (Juman ∅) as [j|e]; try discriminate Hinit;
      unfold bind, Token_set_extension, ret in Hinit;
      rewrite andb_false_r in Hinit; by injection Hinit as <- _.
  - intros d -> Hd. simpl in Hinit.
    rewrite bool_decide_eq_false_2 in Hinit by done. simpl in Hinit.
    destruct (Juman d) as [j|e]; try discriminate Hinit.
    unfold bind, Token_set_extension, ret in Hinit.
    rewrite andb_false_r in Hinit. by injection Hinit as <- _.
  - destruct (if truthy_dict kw then _ else _) as [j|e];
      try discriminate Hinit.
    unfold bind, Token_set_extension, ret in Hinit.
    rewrite andb_false_r in Hinit. injection Hinit as <- <-.
    by destruct nlp.
Qed.

(** X7: in the language defaults the language-id getter answers [juman]
    for every text, and every other lexical attribute getter is the host
    framework's. *)
Theorem lex_attr_getters_override (LANG : nat)
    (base : gmap nat (string -> PyVal)) :
  (exists g, Defaults_lex_attr_getters LANG base !! LANG = Some g
             /\ forall txt, g txt = PyStr "juman")
  /\ (forall a, a <> LANG ->
        Defaults_lex_attr_getters LANG base !! a = base !! a).
Proof.
  unfold Defaults_lex_attr_getters. split.
  - eexists. split; [apply lookup_insert_eq|done].
  - intros a Ha. by rewrite lookup_insert_ne.
Qed.


(** X10: when a unit the analyzer reports has an empty surface form, the
    call returns no document: the host framework's document constructor
    raises [ValueError] on the empty word, after the analyzer has been
    invoked and before any token attribute is assigned, so whether or
    not the detail-string attribute is registered. *)
Theorem call_empty_surface_raises (self : Tokenizer) (txt txt' : string)
    (r : MList) (w : World) :
  preprocess self txt = Ok txt' ->
  analysis (tokenizer self) txt' = Ok r ->
  "" ∈ map midasi (mrph_list r) ->
  Tokenizer__call__ self txt w
  = (Raise (Exception "ValueError" "[E031]"), logged txt' w).
Proof.
  intros Hpre Hana Hempty.
  unfold Tokenizer__call__, bind at 1, lift at 1. rewrite Hpre.
  unfold bind at 1. rewrite detailed_tokens_run, Hana.
  unfold bind, lift. rewrite Doc_init_words.
  by case_decide.
Qed.

End Coverage.

(** ** Closed instances of the further properties *)

Lemma make_doc_after_construction_witness :
  exists lang w1 doc,
    Japanese__init__ Sample.KEY Sample.Juman Sample.create_vocab
      None (Some Sample.shout) Sample.w0 = (Ok lang, w1)
    /\ fst (Japanese_make_doc lang "abc" w1) = Ok doc
    /\ doc_vocab doc = Language_vocab lang
    /\ tokens doc
       = map (token_of (Language_vocab lang) Sample.KEY)
             (mrph_list Sample.units)
    /\ map spacy.text (tokens doc) = map midasi (mrph_list Sample.units).
Proof.
  apply (make_doc_after_construction Sample.KEY Sample.Juman
           Sample.create_vocab None (Some Sample.shout) Sample.w0
           Sample.juman "abc" "abc!" Sample.units);
    [reflexivity | reflexivity | reflexivity | by_evaluation].
Defined.

Lemma call_unregistered_raises_witness :
  Tokenizer__call__ Sample.tok_plain "abc" Sample.w0
  = (Raise (Exception "AttributeError" "[E047]"), logged "abc" Sample.w0).
Proof.
  apply (call_unregistered_raises Sample.tok_plain "abc" "abc"
           Sample.units Sample.w0);
    [reflexivity | reflexivity | reflexivity | discriminate
    | by_evaluation].
Defined.

Lemma call_no_units_witness :
  Tokenizer__call__ Edge.tok "abc" Sample.w0
  = (Ok (mkDoc (vocab Edge.tok) []), logged "abc" Sample.w0)
  /\ Doc_text (mkDoc (vocab Edge.tok) []) = "".
Proof.
  apply (call_no_units Edge.tok "abc" "abc" (mkMList []) Sample.w0);
    reflexivity.
Defined.


Lemma init_stores_configuration_witness :
  (Some Edge.options = None \/ Some Edge.options = Some ∅ ->
   Sample.Juman ∅ = Ok (tokenizer Sample.tok))
  /\ (forall d, Some Edge.options = Some d -> d <> ∅ ->
        Sample.Juman d = Ok (tokenizer Sample.tok))
  /\ preprocessor Sample.tok = Some Sample.shout
  /\ key_fstring Sample.tok = Sample.KEY
  /\ vocab Sample.tok = Sample.create_vocab None
  /\ analysis_log Sample.w1 = analysis_log Sample.w0.
Proof.
  apply (init_stores_configuration Sample.KEY Sample.Juman
           Sample.create_vocab None (Some Edge.options)
           (Some Sample.shout) Sample.w0 Sample.w1 Sample.tok).
  vm_compute. reflexivity.
Defined.


Lemma call_empty_surface_raises_witness :
  Tokenizer__call__ Edge.tok_hollow "abc" Sample.w1
  = (Raise (Exception "ValueError" "[E031]"), logged "abc" Sample.w1).
Proof.
  apply (call_empty_surface_raises Edge.tok_hollow "abc" "abc"
           Edge.hollow_units Sample.w1);
    [reflexivity | reflexivity | by_evaluation].
Defined.

(** The sample call, evaluated: lemmas and tags of the four tokens. *)
Example sample_call_attributes :
  exists doc,
    fst (Tokenizer__call__ Sample.tok "abc" Sample.w1) = Ok doc
    /\ map lemma_ (tokens doc) = ["Tokyo"; "da"; "x"; "y"]
    /\ map tag_ (tokens doc)
       = ["noun/place"; "copula/*"; "special/symbol"; "special/symbol"].
Proof. eexists. split; [vm_compute; reflexivity|]. by vm_compute. Qed.
